(** * S3Pipeline: a shallow embedding of [src/S3Pipeline.py]

    The facade [S3Pipeline] wraps five calls of the storage SDK.  Each
    method performs the SDK call inside a [try] block, logs the outcome
    and converts a caught exception into a sentinel value.

    The embedding uses a state-and-exception monad: a computation takes
    a state and gives back either a returned value or a raised
    exception, together with the state reached.  Python's [try/except]
    is a combinator that tries the clauses in order; state changes made
    before the [raise] are kept, as in Python.

    The SDK (boto3/botocore) and the decoder (pandas) are outside the
    repository: their behaviour is a parameter.  The client handle is a
    record of arbitrary, possibly failing, state-changing functions, so
    a statement over all clients covers every behaviour of the service. *)

From Stdlib Require Import Strings.String Strings.Byte.
From stdpp Require Import base option list strings gmap pretty.

Set Default Proof Using "Type".
Open Scope string_scope.
Open Scope list_scope.

(** ** Values, exceptions, outcomes *)

Definition bytes : Type := list Byte.byte.

(** Instances of (subclasses of) Python's [Exception].  The source
    names two classes in its [except] clauses; everything else is
    [OtherException] and carries its class name. *)
Inductive exn : Type :=
| ClientError (msg : string)
| EmptyDataError (msg : string)
| OtherException (cls msg : string).

(** [str(e)] *)
Definition str (e : exn) : string :=
  match e with
  | ClientError msg => msg
  | EmptyDataError msg => msg
  | OtherException _ msg => msg
  end.

(** The classes that appear after [except] in the source. *)
Inductive ExcClass : Type := cls_ClientError | cls_EmptyDataError | cls_Exception.

Definition isinstance (e : exn) (c : ExcClass) : bool :=
  match c, e with
  | cls_Exception, _ => true
  | cls_ClientError, ClientError _ => true
  | cls_EmptyDataError, EmptyDataError _ => true
  | _, _ => false
  end.

Inductive Result (A : Type) : Type :=
| Return (a : A)
| Raise (e : exn).
Arguments Return {A} a.
Arguments Raise {A} e.

Definition raised {A} (r : Result A) : bool :=
  match r with Raise _ => true | Return _ => false end.

(** ** The monad *)

Definition M (St A : Type) : Type := St -> Result A * St.

Definition ret {St A} (a : A) : M St A := fun s => (Return a, s).

Definition raise {St A} (e : exn) : M St A := fun s => (Raise e, s).

Definition bind {St A B} (m : M St A) (k : A -> M St B) : M St B :=
  fun s =>
    match m s with
    | (Return a, s') => k a s'
    | (Raise e, s') => (Raise e, s')
    end.

Notation "'let*' x ':=' m 'in' k" := (bind m (fun x => k))
  (at level 10, x name, m at level 100, k at level 200).
Notation "m ';;' k" := (bind m (fun _ => k))
  (at level 100, k at level 200, right associativity).

Record ExceptClause (St A : Type) : Type := except {
  catches : ExcClass;
  handler : exn -> M St A
}.
Arguments except {St A} catches handler.
Arguments catches {St A} _.
Arguments handler {St A} _.

(** The first clause whose class the exception is an instance of. *)
Fixpoint find_clause {St A} (e : exn) (cs : list (ExceptClause St A))
  : option (ExceptClause St A) :=
  match cs with
  | [] => None
  | c :: cs' => if isinstance e (catches c) then Some c else find_clause e cs'
  end.

Definition try_except {St A} (body : M St A) (cs : list (ExceptClause St A)) : M St A :=
  fun s =>
    match body s with
    | (Return a, s') => (Return a, s')
    | (Raise e, s') =>
        match find_clause e cs with
        | Some c => handler c e s'
        | None => (Raise e, s')
        end
    end.

(** ** The world outside the facade *)

(** Local files by path, remote objects by (bucket, key). *)
Record Env : Type := {
  local_files : gmap string bytes;
  remote_objects : gmap (string * string) bytes
}.

(** The boto3 client, as far as the facade uses it.  Response shapes
    are those of the service API: [response["Buckets"]] is a list of
    entries with a [Name], a page may or may not have the key
    [Contents], whose entries have a [Key]. *)
Module Client.

Record StreamingBody : Type := { read : Env -> Result bytes * Env }.
Record GetObjectOutput : Type := { Body : StreamingBody }.

Record BucketEntry : Type := { Name : string }.
Record ListBucketsOutput : Type := { Buckets : list BucketEntry }.

Record ObjectEntry : Type := { Key : string }.
Record Page : Type := { Contents : option (list ObjectEntry) }.

(** What iterating over [paginator.paginate(...)] does: yield a page
    and go on, stop, or raise while fetching the next page. *)
Inductive PageIterator : Type :=
| StopIteration
| NextPage (page : Page) (rest : PageIterator)
| NextRaises (e : exn).

Record Paginator : Type := {
  paginate : string -> string -> Env -> Result PageIterator * Env
}.

Record S3Client : Type := {
  upload_file : string -> string -> string -> Env -> Result unit * Env;
  download_file : string -> string -> string -> Env -> Result unit * Env;
  get_object : string -> string -> Env -> Result GetObjectOutput * Env;
  list_buckets : Env -> Result ListBucketsOutput * Env;
  get_paginator : string -> Env -> Result Paginator * Env
}.

(** The iterator that yields the given pages and stops. *)
Definition pages_iter (pages : list Page) : PageIterator :=
  foldr NextPage StopIteration pages.

End Client.

(** The two module-level collaborators: [boto3.client] and
    [pd.read_csv], with the types of the table and of the keyword
    arguments forwarded to the decoder. *)
Class Externals : Type := {
  DataFrame : Type;
  Kwargs : Type;
  boto3_client : string -> Env -> Result Client.S3Client * Env;
  pd_read_csv : bytes -> Kwargs -> Result DataFrame
}.

(** ** Logging *)

Inductive Level : Type := INFO | ERROR.

Record Logger : Type := { logger_name : string }.

Record LogRecord : Type := {
  rec_logger : string;
  rec_level : Level;
  rec_message : string
}.

Definition getLogger (name : string) : Logger := {| logger_name := name |}.

(** ** The facade *)

Module S3Pipeline.
Section WithExternals.
Context `{ext : Externals}.

(** The SDK and decoder calls the facade makes, recorded in call order
    the way a test double records them. *)
Inductive Call : Type :=
| Call_boto3_client (service_name : string)
| Call_upload_file (file_path bucket_name object_name : string)
| Call_download_file (bucket_name object_name file_path : string)
| Call_get_object (bucket_name object_key : string)
| Call_Body_read
| Call_read_csv (csv_content : bytes) (pandas_kwargs : Kwargs)
| Call_list_buckets
| Call_get_paginator (operation_name : string)
| Call_paginate (bucket_name prefix : string).

Record World : Type := {
  env : Env;
  calls : list Call;
  records : list LogRecord
}.

(** The attributes [__init__] sets. *)
Record S3Pipeline : Type := {
  logger : Logger;
  s3_client : Client.S3Client
}.

(** A constructed facade together with the world it runs in. *)
Record Heap : Type := {
  self : S3Pipeline;
  world : World
}.

(** *** Primitive steps *)

(** Call a collaborator: the call is recorded, then it runs. *)
Definition invoke {A} (c : Call) (f : Env -> Result A * Env) : M World A :=
  fun w =>
    let '(r, env') := f (env w) in
    (r, {| env := env'; calls := calls w ++ [c]; records := records w |}).

Definition emit (lg : Logger) (lvl : Level) (msg : string) : M World unit :=
  fun w =>
    (Return tt,
     {| env := env w; calls := calls w;
        records := records w ++
          [{| rec_logger := logger_name lg; rec_level := lvl; rec_message := msg |}] |}).

Definition in_world {A} (m : M World A) : M Heap A :=
  fun h =>
    let '(r, w') := m (world h) in
    (r, {| self := self h; world := w' |}).

(** [self.s3_client.<method>(...)] *)
Definition call_client {A} (c : Call) (f : Client.S3Client -> Env -> Result A * Env)
  : M Heap A :=
  fun h => in_world (invoke c (f (s3_client (self h)))) h.

(** [self.logger.info(msg)] and [self.logger.error(msg)] *)
Definition info (msg : string) : M Heap unit :=
  fun h => in_world (emit (logger (self h)) INFO msg) h.

Definition error (msg : string) : M Heap unit :=
  fun h => in_world (emit (logger (self h)) ERROR msg) h.

Definition __name__ : string := "src.S3Pipeline".

(** *** Methods *)

(** [__init__]: the logger is taken first; a failure of
    [boto3.client("s3")] is logged and re-raised. *)
Definition __init__ : M World S3Pipeline :=
  let lg := getLogger __name__ in
  try_except
    (let* c := invoke (Call_boto3_client "s3") (boto3_client "s3") in
     emit lg INFO "Successfully initialized S3 client" ;;
     ret {| logger := lg; s3_client := c |})
    [ except cls_Exception (fun e =>
        emit lg ERROR ("Failed to initialize S3 client: " +:+ str e) ;;
        raise e) ].

(** [upload_file(file_path, bucket_name, object_name=None)] *)
Definition upload_file (file_path bucket_name : string) (object_name : option string)
  : M Heap bool :=
  let object_name := default file_path object_name in
  try_except
    (call_client (Call_upload_file file_path bucket_name object_name)
       (fun c => Client.upload_file c file_path bucket_name object_name) ;;
     info ("Successfully uploaded " +:+ file_path +:+ " to "
             +:+ bucket_name +:+ "/" +:+ object_name) ;;
     ret true)
    [ except cls_ClientError (fun e =>
        error ("Failed to upload file: " +:+ str e) ;;
        ret false) ].

(** [download_file(bucket_name, object_name, file_path)] *)
Definition download_file (bucket_name object_name file_path : string) : M Heap bool :=
  try_except
    (call_client (Call_download_file bucket_name object_name file_path)
       (fun c => Client.download_file c bucket_name object_name file_path) ;;
     info ("Successfully downloaded " +:+ bucket_name +:+ "/" +:+ object_name
             +:+ " to " +:+ file_path) ;;
     ret true)
    [ except cls_ClientError (fun e =>
        error ("Failed to download file: " +:+ str e) ;;
        ret false) ].

(** [read_csv_to_dataframe(bucket_name, object_key, **pandas_kwargs)]:
    three [except] clauses, tried in the order written. *)
Definition read_csv_to_dataframe (bucket_name object_key : string)
    (pandas_kwargs : Kwargs) : M Heap (option DataFrame) :=
  try_except
    (let* response :=
       call_client (Call_get_object bucket_name object_key)
         (fun c => Client.get_object c bucket_name object_key) in
     let* csv_content :=
       in_world (invoke Call_Body_read (Client.read (Client.Body response))) in
     let* df :=
       in_world (invoke (Call_read_csv csv_content pandas_kwargs)
                   (fun e => (pd_read_csv csv_content pandas_kwargs, e))) in
     info ("Successfully read CSV from " +:+ bucket_name +:+ "/" +:+ object_key) ;;
     ret (Some df))
    [ except cls_ClientError (fun e =>
        error ("Failed to read CSV from S3: " +:+ str e) ;;
        ret None);
      except cls_EmptyDataError (fun _ =>
        error "CSV file is empty" ;;
        ret None);
      except cls_Exception (fun e =>
        error ("Error processing CSV file: " +:+ str e) ;;
        ret None) ].

(** [list_buckets()] *)
Definition list_buckets : M Heap (list string) :=
  try_except
    (let* response := call_client Call_list_buckets Client.list_buckets in
     let buckets := map Client.Name (Client.Buckets response) in
     info ("Successfully retrieved " +:+ pretty (length buckets) +:+ " buckets") ;;
     ret buckets)
    [ except cls_ClientError (fun e =>
        error ("Failed to list buckets: " +:+ str e) ;;
        ret []) ].

(** The [for page in ...] loop with its accumulator [objects]. *)
Fixpoint for_page {St} (it : Client.PageIterator) (objects : list string)
  : M St (list string) :=
  match it with
  | Client.StopIteration => ret objects
  | Client.NextPage page rest =>
      match Client.Contents page with
      | Some contents => for_page rest (objects ++ map Client.Key contents)
      | None => for_page rest objects
      end
  | Client.NextRaises e => raise e
  end.

(** [list_objects(bucket_name, prefix="")]; a caller that leaves the
    prefix out passes the empty string. *)
Definition list_objects (bucket_name : string) (prefix : string) : M Heap (list string) :=
  try_except
    (let* paginator :=
       call_client (Call_get_paginator "list_objects_v2")
         (fun c => Client.get_paginator c "list_objects_v2") in
     let* objects :=
       let* pages :=
         in_world (invoke (Call_paginate bucket_name prefix)
                     (Client.paginate paginator bucket_name prefix)) in
       for_page pages [] in
     info ("Successfully listed " +:+ pretty (length objects) +:+ " objects in "
             +:+ bucket_name) ;;
     ret objects)
    [ except cls_ClientError (fun e =>
        error ("Failed to list objects: " +:+ str e) ;;
        ret []) ].

(** *** The public operations as data

    A request names one of the five public methods with its arguments;
    [run] dispatches it.  [sentinel] is the value the method's
    [except] clauses return. *)

Inductive Operation : Type :=
| op_upload_file (file_path bucket_name : string) (object_name : option string)
| op_download_file (bucket_name object_name file_path : string)
| op_read_csv_to_dataframe (bucket_name object_key : string) (pandas_kwargs : Kwargs)
| op_list_buckets
| op_list_objects (bucket_name prefix : string).

Inductive Value : Type :=
| v_bool (b : bool)
| v_table (t : option DataFrame)
| v_keys (l : list string).

Definition run (op : Operation) : M Heap Value :=
  match op with
  | op_upload_file f b o => let* r := upload_file f b o in ret (v_bool r)
  | op_download_file b o f => let* r := download_file b o f in ret (v_bool r)
  | op_read_csv_to_dataframe b k kw =>
      let* r := read_csv_to_dataframe b k kw in ret (v_table r)
  | op_list_buckets => let* r := list_buckets in ret (v_keys r)
  | op_list_objects b p => let* r := list_objects b p in ret (v_keys r)
  end.

Definition sentinel (op : Operation) : Value :=
  match op with
  | op_upload_file _ _ _ | op_download_file _ _ _ => v_bool false
  | op_read_csv_to_dataframe _ _ _ => v_table None
  | op_list_buckets | op_list_objects _ _ => v_keys []
  end.

(** The exception, if any, that iterating to the end runs into. *)
Fixpoint iter_raises (it : Client.PageIterator) : option exn :=
  match it with
  | Client.StopIteration => None
  | Client.NextPage _ rest => iter_raises rest
  | Client.NextRaises e => Some e
  end.

(** The pages iterating yields before it stops or raises. *)
Fixpoint iter_pages (it : Client.PageIterator) : list Client.Page :=
  match it with
  | Client.StopIteration => []
  | Client.NextPage page rest => page :: iter_pages rest
  | Client.NextRaises _ => []
  end.

(** [get_object] followed by [response["Body"].read()]. *)
Definition fetch (c : Client.S3Client) (bucket_name object_key : string)
  : Env -> Result bytes * Env :=
  fun e =>
    match Client.get_object c bucket_name object_key e with
    | (Return response, e1) => Client.read (Client.Body response) e1
    | (Raise x, e1) => (Raise x, e1)
    end.

(** The first exception raised by the service calls an operation
    makes on client [c] in environment [e], if one is raised. *)
Definition service_failure (op : Operation) (c : Client.S3Client) (e : Env)
  : option exn :=
  match op with
  | op_upload_file f b o =>
      match Client.upload_file c f b (default f o) e with
      | (Raise x, _) => Some x
      | (Return _, _) => None
      end
  | op_download_file b o f =>
      match Client.download_file c b o f e with
      | (Raise x, _) => Some x
      | (Return _, _) => None
      end
  | op_read_csv_to_dataframe b k _ =>
      match fetch c b k e with
      | (Raise x, _) => Some x
      | (Return _, _) => None
      end
  | op_list_buckets =>
      match Client.list_buckets c e with
      | (Raise x, _) => Some x
      | (Return _, _) => None
      end
  | op_list_objects b p =>
      match Client.get_paginator c "list_objects_v2" e with
      | (Raise x, _) => Some x
      | (Return paginator, e1) =>
          match Client.paginate paginator b p e1 with
          | (Raise x, _) => Some x
          | (Return it, _) => iter_raises it
          end
      end
  end.


(** *** Observations on the call record *)

Definition is_transfer (c : Call) : bool :=
  match c with
  | Call_upload_file _ _ _ | Call_download_file _ _ _ => true
  | _ => false
  end.

Definition is_decode (c : Call) : bool :=
  match c with
  | Call_read_csv _ _ => true
  | _ => false
  end.

Definition count_calls (p : Call -> bool) (l : list Call) : nat :=
  length (filter (fun c => p c = true) l).

(** *** The listing as the specification words it *)

(** The keys a page contributes: the [Key] of each entry of its
    [Contents], none when the page has no [Contents]. *)
Definition spec_page_keys (page : Client.Page) : list string :=
  match Client.Contents page with
  | Some contents => map Client.Key contents
  | None => []
  end.

(** Pages flattened in page order, each in its own order. *)
Definition spec_flatten (pages : list Client.Page) : list string :=
  concat (map spec_page_keys pages).

(** The iterator that yields the given pages and then raises. *)
Definition pages_then_raise (pages : list Client.Page) (x : exn) : Client.PageIterator :=
  foldr Client.NextPage (Client.NextRaises x) pages.

(** A client whose transfers store what is put and give it back:
    an upload of an existing local file puts its bytes under
    (bucket, key); a download of a stored object writes its bytes to
    the local path. *)
Definition stores_and_returns (c : Client.S3Client) : Prop :=
  (forall e path bucket key content,
      local_files e !! path = Some content ->
      Client.upload_file c path bucket key e =
        (Return tt,
         {| local_files := local_files e;
            remote_objects := <[(bucket, key) := content]> (remote_objects e) |}))
  /\
  (forall e bucket key path content,
      remote_objects e !! (bucket, key) = Some content ->
      Client.download_file c bucket key path e =
        (Return tt,
         {| local_files := <[path := content]> (local_files e);
            remote_objects := remote_objects e |})).

(** *** Observations on a failed table read *)

(** The first exception raised while [read_csv_to_dataframe] fetches
    and decodes on client [c] in environment [e], if one is raised. *)
Definition csv_failure (c : Client.S3Client) (bucket_name object_key : string)
    (pandas_kwargs : Kwargs) (e : Env) : option exn :=
  match fetch c bucket_name object_key e with
  | (Raise x, _) => Some x
  | (Return content, _) =>
      match pd_read_csv content pandas_kwargs with
      | Raise x => Some x
      | Return _ => None
      end
  end.

(** The first exception raised by a collaborator, the service or the
    decoder, during an operation, if one is raised. *)
Definition collaborator_failure (op : Operation) (c : Client.S3Client) (e : Env)
  : option exn :=
  match op with
  | op_read_csv_to_dataframe b k kw => csv_failure c b k kw e
  | _ => service_failure op c e
  end.

(** Two exceptions that the [except] clauses cannot tell apart. *)
Definition same_class (x y : exn) : bool :=
  match x, y with
  | ClientError _, ClientError _ => true
  | EmptyDataError _, EmptyDataError _ => true
  | OtherException _ _, OtherException _ _ => true
  | _, _ => false
  end.

(** *** Frame conditions *)

(** A computation that leaves the facade's attributes as they were. *)
Definition preserves_facade {A} (m : M Heap A) : Prop :=
  forall h, self (m h).2 = self h.

(** A computation whose outcome and effect on the environment depend
    on the facade and the environment only, not on what was called or
    logged before. *)
Definition ignores_history {A} (m : M Heap A) : Prop :=
  forall h1 h2,
    self h1 = self h2 -> env (world h1) = env (world h2) ->
    (m h1).1 = (m h2).1
    /\ self (m h1).2 = self (m h2).2
    /\ env (world (m h1).2) = env (world (m h2).2).

End WithExternals.
End S3Pipeline.

(** ** A test double

    The collaborators as the repository's tests set them up: a client
    with an optional [side_effect] raised by every call, otherwise a
    store that keeps what is put, a fixed bucket list and a fixed page
    iterator; a decoder that reports empty input. *)

Module Mock.

Definition client (side_effect : option exn) (buckets : list string)
    (listing : Client.PageIterator) : Client.S3Client :=
  let guarded {A} (f : Env -> Result A * Env) : Env -> Result A * Env :=
    fun e => match side_effect with Some x => (Raise x, e) | None => f e end in
  {| Client.upload_file path bucket key := guarded (fun e =>
       match local_files e !! path with
       | Some content =>
           (Return tt,
            {| local_files := local_files e;
               remote_objects := <[(bucket, key) := content]> (remote_objects e) |})
       | None => (Raise (OtherException "FileNotFoundError" path), e)
       end);
     Client.download_file bucket key path := guarded (fun e =>
       match remote_objects e !! (bucket, key) with
       | Some content =>
           (Return tt,
            {| local_files := <[path := content]> (local_files e);
               remote_objects := remote_objects e |})
       | None => (Raise (ClientError "Not Found"), e)
       end);
     Client.get_object bucket key := guarded (fun e =>
       match remote_objects e !! (bucket, key) with
       | Some content =>
           (Return {| Client.Body := {| Client.read := fun e' => (Return content, e') |} |}, e)
       | None => (Raise (ClientError "Not Found"), e)
       end);
     Client.list_buckets := guarded (fun e =>
       (Return {| Client.Buckets := map Client.Build_BucketEntry buckets |}, e));
     Client.get_paginator _ := guarded (fun e =>
       (Return {| Client.paginate := fun _ _ e' => (Return listing, e') |}, e)) |}.

(** A double that counts its transfers itself, as a mock records its
    calls: each [upload_file] and [download_file] first adds one byte
    to a reserved object, then the wrapped client runs. *)
Definition tally_key : string * string := ("mock", "transfer-calls").

Definition transfer_count (e : Env) : nat :=
  length (default [] (remote_objects e !! tally_key)).

Definition tick (e : Env) : Env :=
  {| local_files := local_files e;
     remote_objects :=
       <[tally_key := x00 :: default [] (remote_objects e !! tally_key)]>
         (remote_objects e) |}.

Definition counting (c : Client.S3Client) : Client.S3Client :=
  {| Client.upload_file path bucket key := fun e =>
       Client.upload_file c path bucket key (tick e);
     Client.download_file bucket key path := fun e =>
       Client.download_file c bucket key path (tick e);
     Client.get_object := Client.get_object c;
     Client.list_buckets := Client.list_buckets c;
     Client.get_paginator := Client.get_paginator c |}.

Fixpoint split_on (sep : Byte.byte) (bs : bytes) : list bytes :=
  match bs with
  | [] => [[]]
  | b :: bs' =>
      if Byte.eqb b sep then [] :: split_on sep bs'
      else match split_on sep bs' with
           | cur :: rest => (b :: cur) :: rest
           | [] => [[b]]
           end
  end.

(** Rows of cells; empty input is the decoder's "no data" error. *)
Definition read_csv (content : bytes) (kwargs : list (string * string))
  : Result (list (list string)) :=
  match content with
  | [] => Raise (EmptyDataError "No columns to parse from file")
  | _ => Return (map (fun row => map string_of_list_byte (split_on "," row))
                   (split_on x0a content))
  end.

Definition externals : Externals :=
  {| DataFrame := list (list string);
     Kwargs := list (string * string);
     boto3_client _ := fun e => (Return (client None [] Client.StopIteration), e);
     pd_read_csv := read_csv |}.

(** A call without keyword arguments. *)
Definition no_kwargs : @Kwargs externals := [].

(** Creation of the client fails, as in the initialization-failure test. *)
Definition broken_externals : Externals :=
  {| DataFrame := list (list string);
     Kwargs := list (string * string);
     boto3_client _ := fun e => (Raise (OtherException "Exception" "Connection error"), e);
     pd_read_csv := read_csv |}.

Definition csv_bytes : bytes :=
  list_byte_of_string "name,age
John,30
Jane,25".

Definition env0 : Env :=
  {| local_files := {[ "test.txt" := csv_bytes ]};
     remote_objects := {[ ("test-bucket", "test.csv") := csv_bytes;
                          ("test-bucket", "empty.csv") := [] ]} |}.

End Mock.

Module Fixture.
Import S3Pipeline.
Section WithExternals.
Context `{ext : Externals}.

Definition facade (c : Client.S3Client) : S3Pipeline :=
  {| logger := getLogger __name__; s3_client := c |}.

Definition world0 : World :=
  {| env := Mock.env0; calls := []; records := [] |}.

Definition heap0 (c : Client.S3Client) : Heap :=
  {| self := facade c; world := world0 |}.

(** The healthy service of the success tests. *)
Definition service : Client.S3Client :=
  Mock.client None ["bucket1"; "bucket2"]
    (Client.pages_iter
       [ {| Client.Contents := Some [ {| Client.Key := "object1" |};
                                      {| Client.Key := "object2" |} ] |};
         {| Client.Contents := Some [ {| Client.Key := "object3" |} ] |} ]).

(** The service of the failure tests: every call raises [ClientError]. *)
Definition denied : Client.S3Client :=
  Mock.client (Some (ClientError "Access Denied")) [] Client.StopIteration.

(** The network is down: every call raises an exception that is not
    a [ClientError]. *)
Definition unreachable : Client.S3Client :=
  Mock.client
    (Some (OtherException "EndpointConnectionError"
             "Could not connect to the endpoint URL"))
    [] Client.StopIteration.

(** The service refuses the upload.  boto3's [upload_file] reports
    that as [S3UploadFailedError], which is not a [ClientError]. *)
Definition refused_upload : Client.S3Client :=
  Mock.client
    (Some (OtherException "S3UploadFailedError"
             "Failed to upload test.txt to test-bucket/test.txt: An error occurred (AccessDenied) when calling the PutObject operation: Access Denied"))
    [] Client.StopIteration.

(** The listing fails with [ClientError] after its first page. *)
Definition interrupted : Client.S3Client :=
  Mock.client None []
    (pages_then_raise
       [ {| Client.Contents := Some [ {| Client.Key := "object1" |};
                                      {| Client.Key := "object2" |} ] |} ]
       (ClientError "Access Denied")).

(** The same facade and environment as [heap0] after earlier calls. *)
Definition heap_later (c : Client.S3Client) : Heap :=
  {| self := facade c;
     world := {| env := Mock.env0;
                 calls := [Call_list_buckets; Call_get_object "test-bucket" "test.csv"];
                 records := [ {| rec_logger := __name__; rec_level := INFO;
                                 rec_message := "Successfully retrieved 2 buckets" |} ] |} |}.

End WithExternals.
End Fixture.

(** * Properties *)

Import S3Pipeline.

Ltac unfold_steps :=
  unfold try_except, bind, ret, raise, call_client, in_world, invoke,
    info, error, emit in *.

Ltac run_method_defs :=
  unfold upload_file, download_file, read_csv_to_dataframe, list_buckets,
    list_objects in *.

(** Unfold a method down to the collaborator calls. *)
Ltac run_method :=
  run_method_defs; unfold_steps;
  cbn [fst snd self world env calls records] in *.

Create HintDb frame.

Section Properties.
Context `{ext : Externals}.

(** ** The monad's combinators and the frame conditions *)

Lemma find_clause_elem {St A} (x : exn) (cs : list (ExceptClause St A)) c :
  find_clause x cs = Some c -> c ∈ cs.
Proof.
  induction cs as [|c' cs IH]; cbn; [discriminate|].
  destruct (isinstance x (catches c')).
  - intros [= ->]. left.
  - intros Hc. right. auto.
Qed.

Lemma preserves_ret {A} (a : A) : preserves_facade (ret a).
Proof. intros h. reflexivity. Qed.

Lemma preserves_raise {A} (x : exn) : preserves_facade (@raise Heap A x).
Proof. intros h. reflexivity. Qed.

Lemma preserves_in_world {A} (m : M World A) : preserves_facade (in_world m).
Proof. intros h. unfold in_world. destruct (m (world h)). reflexivity. Qed.

Lemma preserves_call_client {A} c (f : Client.S3Client -> Env -> Result A * Env) :
  preserves_facade (call_client c f).
Proof. intros h. unfold call_client. apply preserves_in_world. Qed.

Lemma preserves_info msg : preserves_facade (info msg).
Proof. intros h. reflexivity. Qed.

Lemma preserves_error msg : preserves_facade (error msg).
Proof. intros h. reflexivity. Qed.

Lemma preserves_bind {A B} (m : M Heap A) (k : A -> M Heap B) :
  preserves_facade m -> (forall a, preserves_facade (k a)) ->
  preserves_facade (bind m k).
Proof.
  intros Hm Hk h. unfold bind. specialize (Hm h).
  destruct (m h) as [[a|x] h']; cbn in *; [|assumption].
  rewrite Hk. assumption.
Qed.

Lemma preserves_try_except {A} (body : M Heap A) cs :
  preserves_facade body ->
  Forall (fun c => forall x, preserves_facade (handler c x)) cs ->
  preserves_facade (try_except body cs).
Proof.
  intros Hb Hcs h. unfold try_except. specialize (Hb h).
  destruct (body h) as [[a|x] h']; cbn in *; [assumption|].
  destruct (find_clause x cs) as [c|] eqn:Hc; [|assumption].
  apply find_clause_elem in Hc.
  rewrite Forall_forall in Hcs. rewrite (Hcs c Hc x h'). assumption.
Qed.

(** The loop over the pages touches no state at all. *)
Lemma for_page_pure {St} (it : Client.PageIterator) (acc : list string) (s : St) :
  for_page it acc s = ((for_page it acc tt).1, s).
Proof.
  revert acc. induction it as [|page rest IH|x]; intros acc; cbn; try reflexivity.
  destruct (Client.Contents page); apply IH.
Qed.

Lemma preserves_for_page it acc : preserves_facade (for_page it acc).
Proof. intros h. rewrite for_page_pure. reflexivity. Qed.

Lemma ignores_ret {A} (a : A) : ignores_history (ret a).
Proof. intros h1 h2 Hs He. done. Qed.

Lemma ignores_raise {A} (x : exn) : ignores_history (@raise Heap A x).
Proof. intros h1 h2 Hs He. done. Qed.

Lemma ignores_invoke {A} c (f : Env -> Result A * Env) :
  ignores_history (in_world (invoke c f)).
Proof.
  intros h1 h2 Hs He. unfold in_world, invoke. rewrite He.
  destruct (f (env (world h2))). done.
Qed.

Lemma ignores_call_client {A} c (f : Client.S3Client -> Env -> Result A * Env) :
  ignores_history (call_client c f).
Proof.
  intros h1 h2 Hs He. unfold call_client. rewrite Hs.
  apply ignores_invoke; assumption.
Qed.

Lemma ignores_info msg : ignores_history (info msg).
Proof. intros h1 h2 Hs He. done. Qed.

Lemma ignores_error msg : ignores_history (error msg).
Proof. intros h1 h2 Hs He. done. Qed.

Lemma ignores_bind {A B} (m : M Heap A) (k : A -> M Heap B) :
  ignores_history m -> (forall a, ignores_history (k a)) ->
  ignores_history (bind m k).
Proof.
  intros Hm Hk h1 h2 Hs He. unfold bind.
  destruct (Hm h1 h2 Hs He) as (Hr & Hs' & He').
  destruct (m h1) as [[a1|x1] h1'], (m h2) as [[a2|x2] h2']; cbn in *;
    try discriminate.
  - injection Hr as ->. apply Hk; assumption.
  - injection Hr as ->. repeat split; assumption.
Qed.

Lemma ignores_try_except {A} (body : M Heap A) cs :
  ignores_history body ->
  Forall (fun c => forall x, ignores_history (handler c x)) cs ->
  ignores_history (try_except body cs).
Proof.
  intros Hb Hcs h1 h2 Hs He. unfold try_except.
  destruct (Hb h1 h2 Hs He) as (Hr & Hs' & He').
  destruct (body h1) as [[a1|x1] h1'], (body h2) as [[a2|x2] h2']; cbn in *;
    try discriminate.
  - repeat split; assumption.
  - injection Hr as ->.
    destruct (find_clause x2 cs) as [c|] eqn:Hc; [|repeat split; assumption].
    apply find_clause_elem in Hc.
    rewrite Forall_forall in Hcs. apply (Hcs c Hc x2); assumption.
Qed.

Lemma ignores_for_page it acc : ignores_history (for_page it acc).
Proof.
  intros h1 h2 Hs He. rewrite (for_page_pure it acc h1), (for_page_pure it acc h2).
  done.
Qed.

Hint Resolve preserves_ret preserves_raise preserves_in_world preserves_call_client
  preserves_info preserves_error preserves_for_page : frame.
Hint Resolve ignores_ret ignores_raise ignores_invoke ignores_call_client
  ignores_info ignores_error ignores_for_page : frame.

Ltac frame_auto :=
  repeat first
    [ apply preserves_try_except | apply ignores_try_except
    | apply preserves_bind | apply ignores_bind
    | apply Forall_cons_2 | apply Forall_nil_2
    | progress intros
    | solve [auto with frame] ].

Lemma run_preserves_facade (op : Operation) : preserves_facade (run op).
Proof. destruct op; unfold run; run_method_defs; cbn [handler]; frame_auto. Qed.

Lemma run_ignores_history (op : Operation) : ignores_history (run op).
Proof. destruct op; unfold run; run_method_defs; cbn [handler]; frame_auto. Qed.

(** ** The loop over the pages *)

Lemma for_page_pages_iter {St} (pages : list Client.Page) (acc : list string) (s : St) :
  for_page (Client.pages_iter pages) acc s = (Return (acc ++ spec_flatten pages), s).
Proof.
  revert acc. induction pages as [|page pages IH]; intros acc; cbn.
  - unfold ret, spec_flatten. cbn. rewrite app_nil_r. reflexivity.
  - fold (Client.pages_iter pages).
    unfold spec_flatten in *. cbn. unfold spec_page_keys at 1.
    destruct (Client.Contents page) as [contents|]; rewrite IH.
    + rewrite <- app_assoc. reflexivity.
    + reflexivity.
Qed.

Lemma for_page_raises {St} (it : Client.PageIterator) (acc : list string) (s : St) x :
  iter_raises it = Some x -> for_page it acc s = (Raise x, s).
Proof.
  revert acc. induction it as [|page rest IH|y]; intros acc; cbn.
  - discriminate.
  - intros Hx. destruct (Client.Contents page); apply IH; assumption.
  - intros [= ->]. reflexivity.
Qed.

Lemma for_page_returns {St} (it : Client.PageIterator) (acc : list string) (s : St) keys s' :
  for_page it acc s = (Return keys, s') -> iter_raises it = None.
Proof.
  revert acc. induction it as [|page rest IH|y]; intros acc; cbn.
  - reflexivity.
  - destruct (Client.Contents page); apply IH.
  - discriminate.
Qed.

Lemma iter_raises_then_raise (pages : list Client.Page) x :
  iter_raises (pages_then_raise pages x) = Some x.
Proof. induction pages as [|page pages IH]; cbn; [reflexivity | exact IH]. Qed.

Lemma spec_flatten_app (l1 l2 : list Client.Page) :
  spec_flatten (l1 ++ l2) = spec_flatten l1 ++ spec_flatten l2.
Proof. unfold spec_flatten. rewrite map_app, concat_app. reflexivity. Qed.

Lemma count_calls_snoc p (l : list Call) c :
  count_calls p (l ++ [c]) = count_calls p l + (if p c then 1 else 0).
Proof.
  unfold count_calls. rewrite filter_app, length_app. f_equal.
  rewrite filter_cons. destruct (p c); reflexivity.
Qed.

(** ** Transfers *)


(** C8: one call of [upload_file] or [download_file] is one call of
    the SDK transfer, whatever that call does.  The environment after
    the method is the one a single run of the client's transfer, on
    the method's arguments and the environment before, leaves; the
    method's outcome is read off that run's outcome; and the call
    record grows by that one transfer call, so the number of transfer
    calls grows by one. *)
Theorem transfer_called_once (h : Heap) (file_path bucket_name object_key : string)
    (object_name : option string) :
  let c := s3_client (self h) in
  let e := env (world h) in
  let sdk_up :=
    Client.upload_file c file_path bucket_name (default file_path object_name) e in
  let sdk_down := Client.download_file c bucket_name object_key file_path e in
  let up := upload_file file_path bucket_name object_name h in
  let down := download_file bucket_name object_key file_path h in
  let outcome := fun r : Result unit =>
    match r with
    | Return _ => Return true
    | Raise x => if isinstance x cls_ClientError then Return false else Raise x
    end in
  (env (world up.2) = sdk_up.2
   /\ up.1 = outcome sdk_up.1
   /\ calls (world up.2) =
        calls (world h)
          ++ [Call_upload_file file_path bucket_name (default file_path object_name)]
   /\ count_calls is_transfer (calls (world up.2))
      = count_calls is_transfer (calls (world h)) + 1)
  /\ (env (world down.2) = sdk_down.2
      /\ down.1 = outcome sdk_down.1
      /\ calls (world down.2) =
           calls (world h) ++ [Call_download_file bucket_name object_key file_path]
      /\ count_calls is_transfer (calls (world down.2))
         = count_calls is_transfer (calls (world h)) + 1).
Proof.
  intros c e sdk_up sdk_down up down outcome.
  assert (Hup : calls (world up.2) =
    calls (world h)
      ++ [Call_upload_file file_path bucket_name (default file_path object_name)]).
  { subst c e sdk_up up. run_method.
    destruct (Client.upload_file _ _ _ _ _) as [[u|[]] e']; reflexivity. }
  assert (Hdown : calls (world down.2) =
    calls (world h) ++ [Call_download_file bucket_name object_key file_path]).
  { subst c e sdk_down down. run_method.
    destruct (Client.download_file _ _ _ _ _) as [[u|[]] e']; reflexivity. }
  rewrite Hup, Hdown, !count_calls_snoc. cbn [is_transfer].
  subst c e sdk_up sdk_down up down outcome.
  split; (split; [|split; [|split; [reflexivity|reflexivity]]]); run_method.
  - destruct (Client.upload_file _ _ _ _ _) as [[u|[]] e']; reflexivity.
  - destruct (Client.upload_file _ _ _ _ _) as [[u|[]] e']; reflexivity.
  - destruct (Client.download_file _ _ _ _ _) as [[u|[]] e']; reflexivity.
  - destruct (Client.download_file _ _ _ _ _) as [[u|[]] e']; reflexivity.
Qed.

(** C7: over a client that stores what is put and returns it on get,
    uploading an existing local file and then downloading the same
    bucket and key succeeds twice and writes the original bytes. *)
Theorem upload_download_roundtrip (h : Heap) (file_path bucket_name local_copy : string)
    (object_name : option string) (content : bytes) :
  stores_and_returns (s3_client (self h)) ->
  local_files (env (world h)) !! file_path = Some content ->
  let up := upload_file file_path bucket_name object_name h in
  let down :=
    download_file bucket_name (default file_path object_name) local_copy up.2 in
  up.1 = Return true
  /\ down.1 = Return true
  /\ local_files (env (world down.2)) !! local_copy = Some content.
Proof.
  intros [Hput Hget] Hfile up down. subst up down.
  run_method.
  rewrite (Hput _ _ _ _ _ Hfile). cbn.
  erewrite Hget by (cbn; apply lookup_insert_eq). cbn.
  repeat split. apply lookup_insert_eq.
Qed.

(** ** Bucket listing *)

(** C6: when the service answers, [list_buckets] returns the [Name] of
    each entry of the answer's bucket list, position by position (the
    answer [bucket1, bucket2] gives [bucket1, bucket2]); when the
    service call raises [ClientError] it returns the empty list. *)
Theorem list_buckets_names (h : Heap) :
  let c := s3_client (self h) in
  let e := env (world h) in
  (forall response e',
      Client.list_buckets c e = (Return response, e') ->
      exists names,
        (list_buckets h).1 = Return names
        /\ names = map Client.Name (Client.Buckets response)
        /\ length names = length (Client.Buckets response)
        /\ forall i b, Client.Buckets response !! i = Some b ->
                       names !! i = Some (Client.Name b))
  /\ (forall e',
      Client.list_buckets c e =
        (Return {| Client.Buckets := [ {| Client.Name := "bucket1" |};
                                       {| Client.Name := "bucket2" |} ] |}, e') ->
      (list_buckets h).1 = Return ["bucket1"; "bucket2"])
  /\ (forall msg e',
      Client.list_buckets c e = (Raise (ClientError msg), e') ->
      (list_buckets h).1 = Return []).
Proof.
  intros c e. subst c e. repeat split.
  - intros response e' Hcall. exists (map Client.Name (Client.Buckets response)).
    repeat split.
    + run_method. rewrite Hcall. reflexivity.
    + apply length_map.
    + intros i b Hb. rewrite list_lookup_fmap, Hb. reflexivity.
  - intros e' Hcall. run_method. rewrite Hcall. reflexivity.
  - intros msg e' Hcall. run_method. rewrite Hcall. reflexivity.
Qed.

(** ** Object listing *)

(** C2: when the paginator yields the pages [pages] and stops,
    [list_objects] returns the keys of the pages' [Contents] entries,
    concatenated in page order and in each page's order; so the pages
    [{Contents: [k1, k2]}, {Contents: [k3]}] give [k1, k2, k3], and a
    page without [Contents] adds nothing.  When [get_paginator] raises
    [ClientError] the result is the empty list. *)
Theorem list_objects_flattens (h : Heap) (bucket_name prefix : string) :
  let c := s3_client (self h) in
  let e := env (world h) in
  (forall paginator e1 pages e2,
      Client.get_paginator c "list_objects_v2" e = (Return paginator, e1) ->
      Client.paginate paginator bucket_name prefix e1
        = (Return (Client.pages_iter pages), e2) ->
      (list_objects bucket_name prefix h).1 = Return (spec_flatten pages)
      /\ (forall k1 k2 k3,
             pages = [ {| Client.Contents := Some [k1; k2] |};
                       {| Client.Contents := Some [k3] |} ] ->
             (list_objects bucket_name prefix h).1
               = Return [Client.Key k1; Client.Key k2; Client.Key k3])
      /\ (forall before after,
             pages = before ++ {| Client.Contents := None |} :: after ->
             (list_objects bucket_name prefix h).1
               = Return (spec_flatten before ++ spec_flatten after)))
  /\ (forall msg e1,
      Client.get_paginator c "list_objects_v2" e = (Raise (ClientError msg), e1) ->
      (list_objects bucket_name prefix h).1 = Return []).
Proof.
  intros c e. subst c e. split.
  - intros paginator e1 pages e2 Hpg Hpages.
    assert (Hres : (list_objects bucket_name prefix h).1 = Return (spec_flatten pages)).
    { run_method. rewrite Hpg. cbn. rewrite Hpages. cbn.
      rewrite for_page_pages_iter. reflexivity. }
    split; [exact Hres|]. split.
    + intros k1 k2 k3 ->. rewrite Hres. reflexivity.
    + intros before after ->. rewrite Hres, spec_flatten_app. reflexivity.
  - intros msg e1 Hpg. run_method. rewrite Hpg. reflexivity.
Qed.

(** C10: when fetching a page raises [ClientError] after the pages
    [pages] were yielded, [list_objects] returns the empty list, not
    the keys collected so far; in general a non-empty result is only
    returned when the iteration ran to its end. *)
Theorem list_objects_discards_partial (h : Heap) (bucket_name prefix : string)
    (paginator : Client.Paginator) (e1 e2 : Env) (it : Client.PageIterator) :
  Client.get_paginator (s3_client (self h)) "list_objects_v2" (env (world h))
    = (Return paginator, e1) ->
  Client.paginate paginator bucket_name prefix e1 = (Return it, e2) ->
  (forall pages msg,
      it = pages_then_raise pages (ClientError msg) ->
      (list_objects bucket_name prefix h).1 = Return [])
  /\ (forall keys,
      (list_objects bucket_name prefix h).1 = Return keys ->
      keys <> [] -> iter_raises it = None).
Proof.
  intros Hpg Hit. split.
  - intros pages msg ->. run_method. rewrite Hpg. cbn. rewrite Hit. cbn.
    rewrite (for_page_raises _ _ _ (ClientError msg))
      by apply iter_raises_then_raise.
    reflexivity.
  - intros keys Hres Hne. run_method. rewrite Hpg in Hres. cbn in Hres.
    rewrite Hit in Hres. cbn in Hres.
    destruct (for_page it [] _) as [[ks|x] h'] eqn:Hloop.
    + eapply for_page_returns. exact Hloop.
    + destruct x; cbn in Hres; congruence.
Qed.

(** ** Reading a table *)

(** C4: when [get_object] raises, whatever the exception and so in
    particular for [ClientError], [read_csv_to_dataframe] returns
    [None], the only call it made is [get_object], and the number of
    decoder calls is what it was. *)
Theorem read_csv_error_skips_decoder (h : Heap) (bucket_name object_key : string)
    (pandas_kwargs : Kwargs) (x : exn) (e' : Env) :
  Client.get_object (s3_client (self h)) bucket_name object_key (env (world h))
    = (Raise x, e') ->
  let out := read_csv_to_dataframe bucket_name object_key pandas_kwargs h in
  out.1 = Return None
  /\ calls (world out.2) = calls (world h) ++ [Call_get_object bucket_name object_key]
  /\ count_calls is_decode (calls (world out.2))
     = count_calls is_decode (calls (world h)).
Proof.
  intros Hget out.
  assert (Hres : out.1 = Return None).
  { subst out. run_method. rewrite Hget. destruct x; reflexivity. }
  assert (Hcalls : calls (world out.2)
                   = calls (world h) ++ [Call_get_object bucket_name object_key]).
  { subst out. run_method. rewrite Hget. destruct x; reflexivity. }
  rewrite Hcalls, count_calls_snoc. cbn [is_decode]. rewrite Nat.add_0_r.
  repeat split; assumption || reflexivity.
Qed.

(** C3: [read_csv_to_dataframe] returns [None] when fetching the
    object raises, when the decoder raises [EmptyDataError], and when
    the decoder raises anything else; it returns [None] in no other
    case, since a decoded table [df] is returned as [Some df]; and it
    never raises.  The three failures give the same value. *)
Theorem read_csv_absent_cases (h : Heap) (bucket_name object_key : string)
    (pandas_kwargs : Kwargs) :
  let fetched := fetch (s3_client (self h)) bucket_name object_key (env (world h)) in
  let result := (read_csv_to_dataframe bucket_name object_key pandas_kwargs h).1 in
  (forall x, fetched.1 = Raise x -> result = Return None)
  /\ (forall content msg,
        fetched.1 = Return content ->
        pd_read_csv content pandas_kwargs = Raise (EmptyDataError msg) ->
        result = Return None)
  /\ (forall content x,
        fetched.1 = Return content ->
        pd_read_csv content pandas_kwargs = Raise x ->
        isinstance x cls_EmptyDataError = false ->
        result = Return None)
  /\ (forall content df,
        fetched.1 = Return content ->
        pd_read_csv content pandas_kwargs = Return df ->
        result = Return (Some df))
  /\ (result = Return None ->
        (exists x, fetched.1 = Raise x)
        \/ (exists content msg,
              fetched.1 = Return content
              /\ pd_read_csv content pandas_kwargs = Raise (EmptyDataError msg))
        \/ (exists content x,
              fetched.1 = Return content
              /\ pd_read_csv content pandas_kwargs = Raise x
              /\ isinstance x cls_EmptyDataError = false))
  /\ raised result = false.
Proof.
  intros fetched result. subst fetched result. unfold fetch. run_method.
  destruct (Client.get_object _ _ _ _) as [[response|x] e1]; cbn.
  - destruct (Client.read _ _) as [[content|x] e2]; cbn.
    + destruct (pd_read_csv content pandas_kwargs) as [df|x] eqn:Hdec; cbn.
      * repeat split; intros; simplify_eq; congruence.
      * destruct x as [msg|msg|cls msg]; cbn;
          (repeat split; [intros; simplify_eq; congruence ..| intros _]).
        -- right. right. exists content, (ClientError msg). auto.
        -- right. left. exists content, msg. auto.
        -- right. right. exists content, (OtherException cls msg). auto.
    + destruct x; cbn;
        (repeat split; [intros; simplify_eq; congruence ..| intros _]);
        left; eauto.
  - destruct x; cbn;
      (repeat split; [intros; simplify_eq; congruence ..| intros _]);
      left; eauto.
Qed.

(** ** The facade as a whole *)

(** C9: no public operation changes the facade's attributes: the
    client handle and the logger after the call are those before it.
    The outcome of a call and its effect on the environment depend on
    the facade and the environment only: two runs that start with the
    same facade in the same environment, whatever was called and
    logged before, return the same and leave the same environment. *)
Theorem operations_leave_facade_unchanged (op : Operation) (h : Heap) :
  self (run op h).2 = self h
  /\ s3_client (self (run op h).2) = s3_client (self h)
  /\ logger (self (run op h).2) = logger (self h)
  /\ (forall h',
        self h' = self h -> env (world h') = env (world h) ->
        (run op h').1 = (run op h).1
        /\ env (world (run op h').2) = env (world (run op h).2)).
Proof.
  pose proof (run_preserves_facade op h) as Hself.
  repeat split; try (rewrite Hself; reflexivity).
  all: destruct (run_ignores_history op h' h) as (Hr & _ & He); assumption.
Qed.


End Properties.

(** * Further properties of the methods *)

Section MoreProperties.
Context `{ext : Externals}.

(** Split on what a collaborator call in the goal gives. *)
Ltac split_call :=
  match goal with
  | |- context [match ?t with (_, _) => _ end] =>
      lazymatch type of t with
      | (Result _ * Env)%type => destruct t as [[?|?] ?] eqn:?
      end
  | |- context [match ?t with Return _ => _ | Raise _ => _ end] =>
      lazymatch t with
      | pd_read_csv _ _ => destruct t eqn:?
      end
  | |- context [for_page ?it ?acc ?s] =>
      lazymatch s with
      | tt => fail
      | _ => rewrite (for_page_pure it acc s);
             destruct (for_page it acc tt) as [[?|?] ?] eqn:?
      end
  end.

(** Split on the class of a raised exception that reaches the
    [except] clauses. *)
Ltac split_exn :=
  match goal with
  | |- context [find_clause ?x _] =>
      is_var x; destruct x; cbn [find_clause isinstance catches handler]
  end.

(** Run a method on every outcome of its collaborators. *)
Ltac run_cases :=
  run_method;
  repeat (first [split_call | split_exn];
          cbn [fst snd self world env calls records in_world] in *).

Lemma for_page_raise_inv {St} (it : Client.PageIterator) (acc : list string)
    (s s' : St) x :
  for_page it acc s = (Raise x, s') -> iter_raises it = Some x.
Proof.
  revert acc. induction it as [|page rest IH|y]; intros acc; cbn.
  - discriminate.
  - destruct (Client.Contents page); apply IH.
  - intros [= ->]. reflexivity.
Qed.

Lemma for_page_iter {St} (it : Client.PageIterator) (acc : list string) (s : St) :
  for_page it acc s
  = (match iter_raises it with
     | None => Return (acc ++ spec_flatten (iter_pages it))
     | Some x => Raise x
     end, s).
Proof.
  revert acc. induction it as [|page rest IH|y]; intros acc; cbn.
  - unfold ret, spec_flatten. cbn. rewrite app_nil_r. reflexivity.
  - unfold spec_flatten in *. cbn. unfold spec_page_keys at 1.
    destruct (Client.Contents page) as [contents|]; rewrite IH;
      destruct (iter_raises rest); try reflexivity.
    rewrite <- app_assoc. reflexivity.
  - reflexivity.
Qed.

Lemma spec_flatten_length (pages : list Client.Page) :
  length (spec_flatten pages)
  = sum_list (map (fun page => length (spec_page_keys page)) pages).
Proof.
  unfold spec_flatten. induction pages as [|page pages IH]; cbn; [reflexivity|].
  rewrite length_app, IH. reflexivity.
Qed.

Lemma spec_page_keys_elem (page : Client.Page) (k : string) :
  k ∈ spec_page_keys page <->
  exists contents entry,
    Client.Contents page = Some contents /\ entry ∈ contents /\ Client.Key entry = k.
Proof.
  unfold spec_page_keys. destruct (Client.Contents page) as [contents|].
  - change (map Client.Key contents) with (Client.Key <$> contents).
    rewrite list_elem_of_fmap. split.
    + intros (entry & -> & Hentry). exists contents, entry. auto.
    + intros (contents' & entry & [= <-] & Hentry & <-). eauto.
  - rewrite elem_of_nil. split; [tauto|].
    intros (contents & entry & Hc & _). discriminate.
Qed.

Lemma spec_flatten_elem (pages : list Client.Page) (k : string) :
  k ∈ spec_flatten pages <->
  exists page contents entry,
    page ∈ pages /\ Client.Contents page = Some contents
    /\ entry ∈ contents /\ Client.Key entry = k.
Proof.
  unfold spec_flatten. induction pages as [|page pages IH]; cbn.
  - rewrite elem_of_nil. split; [tauto|].
    intros (page & contents & entry & Hpage & _). apply elem_of_nil in Hpage. tauto.
  - rewrite elem_of_app, IH, spec_page_keys_elem. split.
    + intros [(contents & entry & Hc & He & Hk)
             |(page' & contents & entry & Hp & Hc & He & Hk)].
      * exists page, contents, entry. repeat split; auto. left.
      * exists page', contents, entry. repeat split; auto. right. exact Hp.
    + intros (page' & contents & entry & Hp & Hc & He & Hk).
      apply elem_of_cons in Hp as [->|Hp]; [left|right]; eauto 10.
Qed.

(** ** Construction *)

(** X1: [__init__] calls [boto3.client("s3")] once and nothing else.
    When the call returns a client, the facade holds that client and
    the logger named after the module, and one INFO record is logged;
    when it raises, one ERROR record carrying [str(e)] is logged and
    the same exception is raised. *)
Theorem init_outcome (w : World) :
  let out := __init__ w in
  calls out.2 = calls w ++ [Call_boto3_client "s3"]
  /\ env out.2 = (boto3_client "s3" (env w)).2
  /\ (forall c e',
        boto3_client "s3" (env w) = (Return c, e') ->
        out.1 = Return {| logger := getLogger "src.S3Pipeline"; s3_client := c |}
        /\ records out.2 =
             records w ++ [ {| rec_logger := "src.S3Pipeline"; rec_level := INFO;
                               rec_message := "Successfully initialized S3 client" |} ])
  /\ (forall x e',
        boto3_client "s3" (env w) = (Raise x, e') ->
        out.1 = Raise x
        /\ records out.2 =
             records w ++ [ {| rec_logger := "src.S3Pipeline"; rec_level := ERROR;
                               rec_message :=
                                 "Failed to initialize S3 client: " +:+ str x |} ]).
Proof.
  intros out. subst out. unfold __init__. unfold_steps.
  destruct (boto3_client "s3" (env w)) as [[c|x] e'] eqn:Hnew; cbn.
  - repeat split; intros; simplify_eq; reflexivity.
  - repeat split; intros; simplify_eq; reflexivity.
Qed.

(** ** Logging *)

(** X2: a public operation that returns has logged exactly one record,
    under the facade's logger, after the records that were there; an
    operation that raises has logged nothing. *)
Theorem one_record_per_returned_call (op : Operation) (h : Heap) :
  let out := run op h in
  (forall v, out.1 = Return v ->
     exists r, records (world out.2) = records (world h) ++ [r]
               /\ rec_logger r = logger_name (logger (self h)))
  /\ (forall x, out.1 = Raise x -> records (world out.2) = records (world h)).
Proof.
  intros out. subst out.
  destruct op; unfold run; run_cases; cbn; split; intros; simplify_eq; eauto.
Qed.

(** X3: the level of that record tells whether a collaborator raised:
    ERROR when the service call or the decoder raised an exception
    (which the operation then caught), INFO when none did. *)
Theorem log_level_tells_outcome (op : Operation) (h : Heap) (v : Value) :
  (run op h).1 = Return v ->
  exists r,
    records (world (run op h).2) = records (world h) ++ [r]
    /\ rec_level r =
         match collaborator_failure op (s3_client (self h)) (env (world h)) with
         | Some _ => ERROR
         | None => INFO
         end.
Proof.
  destruct op; unfold run, collaborator_failure, csv_failure, service_failure, fetch;
    run_cases; cbn; intros; simplify_eq; eauto.
  - match goal with Hloop : for_page _ _ _ = _ |- _ =>
      rewrite (for_page_returns _ _ _ _ _ Hloop) end.
    eauto.
  - match goal with Hloop : for_page _ _ _ = _ |- _ =>
      rewrite (for_page_raise_inv _ _ _ _ _ Hloop) end.
    eauto.
Qed.

(** ** Transfers *)

(** X4: the converse of the return values of the transfers:
    [upload_file] returns [True] only when the SDK upload returned,
    [False] only when it raised [ClientError], and raises exactly the
    exception of another class that the SDK raised; the same for
    [download_file]. *)
Theorem transfer_result_exact (h : Heap) (file_path bucket_name object_key : string)
    (object_name : option string) :
  let sdk_up :=
    (Client.upload_file (s3_client (self h)) file_path bucket_name
       (default file_path object_name) (env (world h))).1 in
  let sdk_down :=
    (Client.download_file (s3_client (self h)) bucket_name object_key file_path
       (env (world h))).1 in
  let up := (upload_file file_path bucket_name object_name h).1 in
  let down := (download_file bucket_name object_key file_path h).1 in
  (up = Return true <-> raised sdk_up = false)
  /\ (up = Return false <-> exists msg, sdk_up = Raise (ClientError msg))
  /\ (forall x, up = Raise x <->
                sdk_up = Raise x /\ isinstance x cls_ClientError = false)
  /\ (down = Return true <-> raised sdk_down = false)
  /\ (down = Return false <-> exists msg, sdk_down = Raise (ClientError msg))
  /\ (forall x, down = Raise x <->
                sdk_down = Raise x /\ isinstance x cls_ClientError = false).
Proof.
  intros sdk_up sdk_down up down. subst sdk_up sdk_down up down.
  run_method.
  destruct (Client.upload_file _ _ _ _ _) as [[u|x] e1];
    destruct (Client.download_file _ _ _ _ _) as [[u'|x'] e2]; cbn;
    try destruct x; try destruct x'; cbn;
    repeat split; intros; destruct_and?; simplify_eq; eauto;
    try discriminate;
    try match goal with H : exists _, _ |- _ => destruct H; discriminate end.
Qed.

(** X5: the facade adds no effect of its own on the files and the
    objects: after a call the environment is the one the SDK calls
    left, whatever their outcome. *)
Theorem facade_adds_no_effect (h : Heap) (file_path bucket_name object_key prefix : string)
    (object_name : option string) (pandas_kwargs : Kwargs) :
  let c := s3_client (self h) in
  let e := env (world h) in
  env (world (upload_file file_path bucket_name object_name h).2)
    = (Client.upload_file c file_path bucket_name (default file_path object_name) e).2
  /\ env (world (download_file bucket_name object_key file_path h).2)
     = (Client.download_file c bucket_name object_key file_path e).2
  /\ env (world (read_csv_to_dataframe bucket_name object_key pandas_kwargs h).2)
     = (fetch c bucket_name object_key e).2
  /\ env (world (list_buckets h).2) = (Client.list_buckets c e).2
  /\ env (world (list_objects bucket_name prefix h).2)
     = match Client.get_paginator c "list_objects_v2" e with
       | (Return paginator, e1) => (Client.paginate paginator bucket_name prefix e1).2
       | (Raise _, e1) => e1
       end.
Proof.
  intros c e. subst c e. unfold fetch.
  repeat split; run_cases; reflexivity.
Qed.

(** X6: over a client that stores what is put and returns it on get,
    downloading a stored object to a local path and uploading that
    path under another bucket and key copies the object: both calls
    return [True], the copy holds the same bytes and the original is
    still there. *)
Theorem download_upload_copies (h : Heap) (bucket_name object_key file_path : string)
    (to_bucket to_key : string) (content : bytes) :
  stores_and_returns (s3_client (self h)) ->
  remote_objects (env (world h)) !! (bucket_name, object_key) = Some content ->
  let down := download_file bucket_name object_key file_path h in
  let up := upload_file file_path to_bucket (Some to_key) down.2 in
  down.1 = Return true
  /\ up.1 = Return true
  /\ remote_objects (env (world up.2)) !! (to_bucket, to_key) = Some content
  /\ remote_objects (env (world up.2)) !! (bucket_name, object_key) = Some content.
Proof.
  intros [Hput Hget] Hobj down up. subst down up.
  run_method.
  rewrite (Hget _ _ _ file_path _ Hobj). cbn.
  erewrite Hput by (cbn; apply lookup_insert_eq). cbn.
  repeat split.
  - apply lookup_insert_eq.
  - destruct (decide ((to_bucket, to_key) = (bucket_name, object_key))) as [->|Hne].
    + apply lookup_insert_eq.
    + rewrite lookup_insert_ne by exact Hne. exact Hobj.
Qed.

(** ** Reading a table *)

(** X7: a failed [read_csv_to_dataframe] logs one ERROR record whose
    message depends on the class of the exception, whichever step
    raised it: the [ClientError] and the catch-all messages end in
    [str(e)], the message for [EmptyDataError] is fixed.  The three
    messages differ, so the log tells the failure classes apart
    although the return value does not. *)
Theorem read_csv_log_tells_cause (h : Heap) (bucket_name object_key : string)
    (pandas_kwargs : Kwargs) (x : exn) :
  let message := fun y =>
    match y with
    | ClientError msg => "Failed to read CSV from S3: " +:+ msg
    | EmptyDataError _ => "CSV file is empty"
    | OtherException _ msg => "Error processing CSV file: " +:+ msg
    end in
  csv_failure (s3_client (self h)) bucket_name object_key pandas_kwargs (env (world h))
    = Some x ->
  records (world (read_csv_to_dataframe bucket_name object_key pandas_kwargs h).2)
  = records (world h) ++
      [ {| rec_logger := logger_name (logger (self h));
           rec_level := ERROR;
           rec_message := message x |} ]
  /\ (forall y, message x = message y -> same_class x y = true).
Proof.
  intros message Hfail. subst message. split.
  - unfold csv_failure, fetch in Hfail. run_method.
    destruct (Client.get_object _ _ _ _) as [[response|y] e1]; cbn in *.
    + destruct (Client.read _ _) as [[content|y] e2]; cbn in *.
      * destruct (pd_read_csv content pandas_kwargs) as [df|y]; [discriminate|].
        injection Hfail as ->. destruct x; reflexivity.
      * injection Hfail as ->. destruct x; reflexivity.
    + injection Hfail as ->. destruct x; reflexivity.
  - intros y Hmsg. destruct x, y; cbn in Hmsg; try reflexivity; discriminate.
Qed.

(** X8: the steps of [read_csv_to_dataframe], each tied to the
    collaborator it runs.  When [get_object] raises, it is the only
    call and the environment is the one it left.  When it returns and
    reading the body raises, the calls are those two and the
    environment is the one the read left.  When the body is read, the
    calls are [get_object], the read and one decoder call on the bytes
    read and the keyword arguments as given; the result is that
    decoder run's table, or [None] when it raised. *)
Theorem read_csv_call_sequence (h : Heap) (bucket_name object_key : string)
    (pandas_kwargs : Kwargs) :
  let c := s3_client (self h) in
  let e := env (world h) in
  let out := read_csv_to_dataframe bucket_name object_key pandas_kwargs h in
  (forall x e1,
      Client.get_object c bucket_name object_key e = (Raise x, e1) ->
      calls (world out.2) = calls (world h) ++ [ Call_get_object bucket_name object_key ]
      /\ env (world out.2) = e1
      /\ out.1 = Return None)
  /\ (forall response e1 x e2,
      Client.get_object c bucket_name object_key e = (Return response, e1) ->
      Client.read (Client.Body response) e1 = (Raise x, e2) ->
      calls (world out.2) =
        calls (world h) ++ [ Call_get_object bucket_name object_key; Call_Body_read ]
      /\ env (world out.2) = e2
      /\ out.1 = Return None)
  /\ (forall response e1 content e2,
      Client.get_object c bucket_name object_key e = (Return response, e1) ->
      Client.read (Client.Body response) e1 = (Return content, e2) ->
      calls (world out.2) =
        calls (world h) ++
          [ Call_get_object bucket_name object_key; Call_Body_read;
            Call_read_csv content pandas_kwargs ]
      /\ env (world out.2) = e2
      /\ out.1 = match pd_read_csv content pandas_kwargs with
                 | Return df => Return (Some df)
                 | Raise _ => Return None
                 end).
Proof.
  intros c e out. subst c e out. split; [|split].
  - intros x e1 Hget. run_method. rewrite Hget. destruct x; repeat split.
  - intros response e1 x e2 Hget Hread. run_method. rewrite Hget. cbn.
    rewrite Hread. destruct x; cbn; rewrite <- app_assoc; repeat split.
  - intros response e1 content e2 Hget Hread. run_method. rewrite Hget. cbn.
    rewrite Hread. cbn.
    destruct (pd_read_csv content pandas_kwargs) as [df|x]; [|destruct x];
      cbn; rewrite <- !app_assoc; repeat split.
Qed.

(** ** Object listing *)

(** X9: the steps of [list_objects], each tied to the collaborator it
    runs.  When [get_paginator] raises, it is the only call.  When it
    returns, [paginate] of the paginator it returned is called once
    with the bucket and the prefix as given, in the environment
    [get_paginator] left, and nothing else is called.  The result is
    read off the iterator [paginate] returned: the keys of its pages
    when it runs to its end, and otherwise, as for an exception of
    [get_paginator] or [paginate], the empty list for [ClientError]
    and the exception itself for any other class. *)
Theorem list_objects_call_sequence (h : Heap) (bucket_name prefix : string) :
  let c := s3_client (self h) in
  let e := env (world h) in
  let out := list_objects bucket_name prefix h in
  let caught := fun x : exn =>
    if isinstance x cls_ClientError then Return [] else Raise x in
  (forall x e1,
      Client.get_paginator c "list_objects_v2" e = (Raise x, e1) ->
      calls (world out.2) = calls (world h) ++ [ Call_get_paginator "list_objects_v2" ]
      /\ env (world out.2) = e1
      /\ out.1 = caught x)
  /\ (forall paginator e1 x e2,
      Client.get_paginator c "list_objects_v2" e = (Return paginator, e1) ->
      Client.paginate paginator bucket_name prefix e1 = (Raise x, e2) ->
      calls (world out.2) =
        calls (world h) ++ [ Call_get_paginator "list_objects_v2";
                             Call_paginate bucket_name prefix ]
      /\ env (world out.2) = e2
      /\ out.1 = caught x)
  /\ (forall paginator e1 it e2,
      Client.get_paginator c "list_objects_v2" e = (Return paginator, e1) ->
      Client.paginate paginator bucket_name prefix e1 = (Return it, e2) ->
      calls (world out.2) =
        calls (world h) ++ [ Call_get_paginator "list_objects_v2";
                             Call_paginate bucket_name prefix ]
      /\ env (world out.2) = e2
      /\ out.1 = match iter_raises it with
                 | None => Return (spec_flatten (iter_pages it))
                 | Some x => caught x
                 end).
Proof.
  intros c e out caught. subst c e out caught. split; [|split].
  - intros x e1 Hpg. run_method. rewrite Hpg. destruct x; repeat split.
  - intros paginator e1 x e2 Hpg Hit. run_method. rewrite Hpg. cbn.
    rewrite Hit. destruct x; cbn; rewrite <- app_assoc; repeat split.
  - intros paginator e1 it e2 Hpg Hit. run_method. rewrite Hpg. cbn.
    rewrite Hit. cbn. rewrite for_page_iter.
    destruct (iter_raises it) as [x|]; [destruct x|];
      cbn; rewrite <- app_assoc; repeat split.
Qed.

(** X10: when the listing runs to its end, the keys returned are
    those of the pages' entries and no others, each as often as it is
    listed: the result is as long as the pages' [Contents] together,
    so nothing is dropped or merged; and the INFO record reports that
    number. *)
Theorem list_objects_members_and_length (h : Heap) (bucket_name prefix : string)
    (paginator : Client.Paginator) (e1 e2 : Env) (pages : list Client.Page) :
  Client.get_paginator (s3_client (self h)) "list_objects_v2" (env (world h))
    = (Return paginator, e1) ->
  Client.paginate paginator bucket_name prefix e1
    = (Return (Client.pages_iter pages), e2) ->
  exists keys,
    (list_objects bucket_name prefix h).1 = Return keys
    /\ length keys
       = sum_list (map (fun page => length (default [] (Client.Contents page))) pages)
    /\ (forall k,
          k ∈ keys <->
          exists page contents entry,
            page ∈ pages /\ Client.Contents page = Some contents
            /\ entry ∈ contents /\ Client.Key entry = k)
    /\ last (records (world (list_objects bucket_name prefix h).2))
       = Some {| rec_logger := logger_name (logger (self h));
                 rec_level := INFO;
                 rec_message := "Successfully listed " +:+ pretty (length keys)
                                  +:+ " objects in " +:+ bucket_name |}.
Proof.
  intros Hpg Hpages. exists (spec_flatten pages).
  assert (Hrun : list_objects bucket_name prefix h =
    (Return (spec_flatten pages),
     {| self := self h;
        world := {| env := e2;
                    calls := (calls (world h) ++ [Call_get_paginator "list_objects_v2"])
                               ++ [Call_paginate bucket_name prefix];
                    records := records (world h) ++
                      [ {| rec_logger := logger_name (logger (self h));
                           rec_level := INFO;
                           rec_message :=
                             "Successfully listed "
                               +:+ pretty (length (spec_flatten pages))
                               +:+ " objects in " +:+ bucket_name |} ] |} |})).
  { run_method. rewrite Hpg. cbn. rewrite Hpages. cbn.
    rewrite for_page_pages_iter. reflexivity. }
  rewrite Hrun. cbn [fst snd world records]. repeat split.
  - rewrite spec_flatten_length. f_equal. apply map_ext. intros page.
    unfold spec_page_keys. destruct (Client.Contents page); cbn;
      [apply length_map | reflexivity].
  - apply spec_flatten_elem.
  - apply spec_flatten_elem.
  - apply last_snoc.
Qed.

(** X11: an empty listing is ambiguous by value and decided by the
    log.  [list_buckets] returns the same empty list when the service
    raises [ClientError] and when it answers with no bucket, but the
    record logged is an ERROR in the first case and an INFO in the
    second.  Independently, [list_objects] returns the empty list when
    a service call of the listing ([get_paginator], [paginate] or the
    fetch of a page) raises [ClientError] and when the pages yielded
    hold no key, again with an ERROR and an INFO record. *)
Theorem empty_listing_ambiguous (h1 h2 : Heap) (bucket_name prefix : string) :
  (forall msg response,
      (Client.list_buckets (s3_client (self h1)) (env (world h1))).1
        = Raise (ClientError msg) ->
      (Client.list_buckets (s3_client (self h2)) (env (world h2))).1
        = Return response ->
      Client.Buckets response = [] ->
      (list_buckets h1).1 = Return [] /\ (list_buckets h2).1 = Return []
      /\ rec_level <$> last (records (world (list_buckets h1).2)) = Some ERROR
      /\ rec_level <$> last (records (world (list_buckets h2).2)) = Some INFO)
  /\ (forall msg paginator ea pages eb,
      service_failure (op_list_objects bucket_name prefix)
        (s3_client (self h1)) (env (world h1)) = Some (ClientError msg) ->
      Client.get_paginator (s3_client (self h2)) "list_objects_v2" (env (world h2))
        = (Return paginator, ea) ->
      Client.paginate paginator bucket_name prefix ea
        = (Return (Client.pages_iter pages), eb) ->
      spec_flatten pages = [] ->
      (list_objects bucket_name prefix h1).1 = Return []
      /\ (list_objects bucket_name prefix h2).1 = Return []
      /\ rec_level <$> last (records (world (list_objects bucket_name prefix h1).2))
         = Some ERROR
      /\ rec_level <$> last (records (world (list_objects bucket_name prefix h2).2))
         = Some INFO).
Proof.
  split.
  - intros msg response Hb1 Hb2 Hnone. run_method.
    destruct (Client.list_buckets _ (env (world h1))) as [r1 w1].
    destruct (Client.list_buckets _ (env (world h2))) as [r2 w2].
    cbn in Hb1, Hb2. subst r1 r2. cbn. rewrite Hnone. cbn.
    rewrite !last_snoc. repeat split.
  - intros msg paginator ea pages eb Hfail Hg2 Hp2 Hnone.
    assert (H1 : (list_objects bucket_name prefix h1).1 = Return []
                 /\ rec_level <$> last (records (world
                      (list_objects bucket_name prefix h1).2)) = Some ERROR).
    { unfold service_failure in Hfail. run_method.
      destruct (Client.get_paginator _ _ (env (world h1))) as [[pg|x] e1]; cbn in *.
      - destruct (Client.paginate pg _ _ _) as [[it|x] e2]; cbn in *.
        + rewrite (for_page_raises _ _ _ _ Hfail). cbn.
          rewrite last_snoc. split; reflexivity.
        + injection Hfail as ->. cbn. rewrite last_snoc. split; reflexivity.
      - injection Hfail as ->. cbn. rewrite last_snoc. split; reflexivity. }
    assert (H2 : (list_objects bucket_name prefix h2).1 = Return []
                 /\ rec_level <$> last (records (world
                      (list_objects bucket_name prefix h2).2)) = Some INFO).
    { run_method. rewrite Hg2. cbn. rewrite Hp2. cbn.
      rewrite for_page_pages_iter, Hnone. cbn.
      rewrite last_snoc. split; reflexivity. }
    destruct H1 as [? ?], H2 as [? ?]. repeat split; assumption.
Qed.

End MoreProperties.

(** * The properties on the test double *)

Section Witnesses.
#[local] Existing Instance Mock.externals.

(** ** The repository's tests, replayed on the model *)

Example test_initialization_success :
  (__init__ Fixture.world0).1
  = Return (Fixture.facade (Mock.client None [] Client.StopIteration)).
Proof. vm_compute. reflexivity. Qed.

Example test_initialization_failure_logs :
  records (@__init__ Mock.broken_externals Fixture.world0).2
  = [ {| rec_logger := "src.S3Pipeline"; rec_level := ERROR;
         rec_message := "Failed to initialize S3 client: Connection error" |} ].
Proof. vm_compute. reflexivity. Qed.

Example test_upload_file_success :
  calls (world (upload_file "test.txt" "test-bucket" (Some "test-object.txt")
                  (Fixture.heap0 Fixture.service)).2)
  = [Call_upload_file "test.txt" "test-bucket" "test-object.txt"].
Proof. vm_compute. reflexivity. Qed.

Example test_upload_file_default_key :
  remote_objects
    (env (world (upload_file "test.txt" "test-bucket" None
                   (Fixture.heap0 Fixture.service)).2))
    !! ("test-bucket", "test.txt") = Some Mock.csv_bytes.
Proof. vm_compute. reflexivity. Qed.

Example test_list_buckets_success_logs :
  records (world (list_buckets (Fixture.heap0 Fixture.service)).2)
  = [ {| rec_logger := "src.S3Pipeline"; rec_level := INFO;
         rec_message := "Successfully retrieved 2 buckets" |} ].
Proof. vm_compute. reflexivity. Qed.

Example test_list_objects_empty :
  (list_objects "test-bucket" "test/"
     (Fixture.heap0
        (Mock.client None []
           (Client.pages_iter [ {| Client.Contents := None |} ])))).1
  = Return [].
Proof. vm_compute. reflexivity. Qed.

Example test_read_csv_distinct_logs :
  records (world (read_csv_to_dataframe "test-bucket" "empty.csv" Mock.no_kwargs
                    (Fixture.heap0 Fixture.service)).2)
  = [ {| rec_logger := "src.S3Pipeline"; rec_level := ERROR;
         rec_message := "CSV file is empty" |} ]
  /\ records (world (read_csv_to_dataframe "test-bucket" "test.csv" Mock.no_kwargs
                       (Fixture.heap0 Fixture.denied)).2)
     = [ {| rec_logger := "src.S3Pipeline"; rec_level := ERROR;
            rec_message := "Failed to read CSV from S3: Access Denied" |} ].
Proof. split; vm_compute; reflexivity. Qed.

(** ** Instances of the theorems *)

Lemma mock_stores_and_returns buckets listing :
  stores_and_returns (Mock.client None buckets listing).
Proof.
  split; intros e ? ? ? content Hlook; cbn; rewrite Hlook; reflexivity.
Qed.


Lemma upload_download_roundtrip_witness :
  local_files Mock.env0 !! "test.txt" = Some Mock.csv_bytes
  /\ (upload_file "test.txt" "test-bucket" None (Fixture.heap0 Fixture.service)).1
     = Return true
  /\ (download_file "test-bucket" "test.txt" "copy.txt"
        (upload_file "test.txt" "test-bucket" None
           (Fixture.heap0 Fixture.service)).2).1 = Return true
  /\ local_files
       (env (world
          (download_file "test-bucket" "test.txt" "copy.txt"
             (upload_file "test.txt" "test-bucket" None
                (Fixture.heap0 Fixture.service)).2).2))
       !! "copy.txt" = Some Mock.csv_bytes.
Proof.
  assert (Hfile : local_files Mock.env0 !! "test.txt" = Some Mock.csv_bytes)
    by (vm_compute; reflexivity).
  split; [exact Hfile|].
  exact (upload_download_roundtrip (Fixture.heap0 Fixture.service)
           "test.txt" "test-bucket" "copy.txt" None Mock.csv_bytes
           (mock_stores_and_returns _ _) Hfile).
Defined.

Lemma list_buckets_names_witness :
  (list_buckets (Fixture.heap0 Fixture.service)).1 = Return ["bucket1"; "bucket2"]
  /\ (list_buckets (Fixture.heap0 Fixture.denied)).1 = Return [].
Proof.
  destruct (list_buckets_names (Fixture.heap0 Fixture.service)) as (_ & Hs & _).
  destruct (list_buckets_names (Fixture.heap0 Fixture.denied)) as (_ & _ & Hd).
  split.
  - eapply Hs. vm_compute. reflexivity.
  - eapply Hd. vm_compute. reflexivity.
Defined.

Lemma list_objects_flattens_witness :
  (list_objects "test-bucket" "test/" (Fixture.heap0 Fixture.service)).1
    = Return ["object1"; "object2"; "object3"]
  /\ (list_objects "test-bucket" "test/" (Fixture.heap0 Fixture.denied)).1 = Return [].
Proof.
  destruct (list_objects_flattens (Fixture.heap0 Fixture.service) "test-bucket" "test/")
    as (Hs & _).
  destruct (list_objects_flattens (Fixture.heap0 Fixture.denied) "test-bucket" "test/")
    as (_ & Hd).
  split.
  - refine (proj1 (proj2 (Hs {| Client.paginate := fun _ _ e' => (Return _, e') |}
                            Mock.env0
                            [ {| Client.Contents := Some [ {| Client.Key := "object1" |};
                                                           {| Client.Key := "object2" |} ] |};
                              {| Client.Contents := Some [ {| Client.Key := "object3" |} ] |} ]
                            Mock.env0 _ _))
              {| Client.Key := "object1" |} {| Client.Key := "object2" |}
              {| Client.Key := "object3" |} _).
    + reflexivity.
    + reflexivity.
    + reflexivity.
  - eapply Hd. vm_compute. reflexivity.
Defined.

Lemma list_objects_discards_partial_witness :
  (list_objects "test-bucket" "" (Fixture.heap0 Fixture.interrupted)).1 = Return [].
Proof.
  refine (proj1 (list_objects_discards_partial (Fixture.heap0 Fixture.interrupted)
                   "test-bucket" ""
                   {| Client.paginate := fun _ _ e' => (Return _, e') |}
                   Mock.env0 Mock.env0 _ _ _)
            [ {| Client.Contents := Some [ {| Client.Key := "object1" |};
                                           {| Client.Key := "object2" |} ] |} ]
            "Access Denied" eq_refl).
  - reflexivity.
  - reflexivity.
Defined.

Lemma read_csv_error_skips_decoder_witness :
  (read_csv_to_dataframe "test-bucket" "nonexistent.csv" Mock.no_kwargs
     (Fixture.heap0 Fixture.denied)).1 = Return None
  /\ calls (world (read_csv_to_dataframe "test-bucket" "nonexistent.csv" Mock.no_kwargs
                     (Fixture.heap0 Fixture.denied)).2)
     = [] ++ [Call_get_object "test-bucket" "nonexistent.csv"]
  /\ count_calls is_decode
       (calls (world (read_csv_to_dataframe "test-bucket" "nonexistent.csv" Mock.no_kwargs
                        (Fixture.heap0 Fixture.denied)).2))
     = count_calls is_decode [].
Proof.
  refine (read_csv_error_skips_decoder (Fixture.heap0 Fixture.denied)
            "test-bucket" "nonexistent.csv" Mock.no_kwargs (ClientError "Access Denied")
            Mock.env0 _).
  vm_compute. reflexivity.
Defined.

Lemma read_csv_absent_cases_witness :
  (read_csv_to_dataframe "test-bucket" "empty.csv" Mock.no_kwargs
     (Fixture.heap0 Fixture.service)).1 = Return None
  /\ (read_csv_to_dataframe "test-bucket" "test.csv" Mock.no_kwargs
        (Fixture.heap0 Fixture.denied)).1 = Return None
  /\ (read_csv_to_dataframe "test-bucket" "test.csv" Mock.no_kwargs
        (Fixture.heap0 Fixture.service)).1
     = Return (Some [["name"; "age"]; ["John"; "30"]; ["Jane"; "25"]]).
Proof.
  destruct (read_csv_absent_cases (Fixture.heap0 Fixture.service)
              "test-bucket" "empty.csv" Mock.no_kwargs) as (_ & Hempty & _).
  destruct (read_csv_absent_cases (Fixture.heap0 Fixture.denied)
              "test-bucket" "test.csv" Mock.no_kwargs) as (Hfetch & _).
  destruct (read_csv_absent_cases (Fixture.heap0 Fixture.service)
              "test-bucket" "test.csv" Mock.no_kwargs) as (_ & _ & _ & Hok & _).
  split; [| split].
  - eapply (Hempty []). + vm_compute. reflexivity. + vm_compute. reflexivity.
  - eapply Hfetch. vm_compute. reflexivity.
  - eapply (Hok Mock.csv_bytes). + vm_compute. reflexivity. + vm_compute. reflexivity.
Defined.

Lemma operations_leave_facade_unchanged_witness :
  self (Fixture.heap_later Fixture.service) = self (Fixture.heap0 Fixture.service)
  /\ (run op_list_buckets (Fixture.heap_later Fixture.service)).1
     = (run op_list_buckets (Fixture.heap0 Fixture.service)).1
  /\ env (world (run op_list_buckets (Fixture.heap_later Fixture.service)).2)
     = env (world (run op_list_buckets (Fixture.heap0 Fixture.service)).2).
Proof.
  split; [reflexivity|].
  apply (proj2 (proj2 (proj2 (operations_leave_facade_unchanged op_list_buckets
                                (Fixture.heap0 Fixture.service))))).
  - reflexivity.
  - reflexivity.
Defined.



(** ** Instances of the further properties *)

Lemma init_outcome_witness :
  (@__init__ Mock.externals Fixture.world0).1
    = Return {| logger := getLogger "src.S3Pipeline";
                s3_client := Mock.client None [] Client.StopIteration |}
  /\ (@__init__ Mock.broken_externals Fixture.world0).1
     = Raise (OtherException "Exception" "Connection error").
Proof.
  destruct (@init_outcome Mock.externals Fixture.world0) as (_ & _ & Hok & _).
  destruct (@init_outcome Mock.broken_externals Fixture.world0) as (_ & _ & _ & Hko).
  split.
  - exact (proj1 (Hok _ Mock.env0 eq_refl)).
  - exact (proj1 (Hko _ Mock.env0 eq_refl)).
Defined.

Lemma one_record_per_returned_call_witness :
  (exists r,
      records (world (run op_list_buckets (Fixture.heap0 Fixture.service)).2)
        = records (world (Fixture.heap0 Fixture.service)) ++ [r]
      /\ rec_logger r = logger_name (logger (self (Fixture.heap0 Fixture.service))))
  /\ records (world (run op_list_buckets (Fixture.heap0 Fixture.unreachable)).2)
     = records (world (Fixture.heap0 Fixture.unreachable)).
Proof.
  split.
  - refine (proj1 (one_record_per_returned_call op_list_buckets
                     (Fixture.heap0 Fixture.service))
              (v_keys ["bucket1"; "bucket2"]) _).
    vm_compute. reflexivity.
  - refine (proj2 (one_record_per_returned_call op_list_buckets
                     (Fixture.heap0 Fixture.unreachable))
              (OtherException "EndpointConnectionError"
                 "Could not connect to the endpoint URL") _).
    vm_compute. reflexivity.
Defined.

Lemma log_level_tells_outcome_witness :
  exists r,
    records (world (run op_list_buckets (Fixture.heap0 Fixture.denied)).2)
      = records (world (Fixture.heap0 Fixture.denied)) ++ [r]
    /\ rec_level r = ERROR.
Proof.
  refine (log_level_tells_outcome op_list_buckets (Fixture.heap0 Fixture.denied)
            (v_keys []) _).
  vm_compute. reflexivity.
Defined.

Lemma transfer_result_exact_witness :
  (upload_file "test.txt" "test-bucket" None (Fixture.heap0 Fixture.service)).1
    = Return true
  /\ exists msg,
       (Client.download_file Fixture.denied "test-bucket" "test.csv" "local-test.txt"
          Mock.env0).1 = Raise (ClientError msg).
Proof.
  destruct (transfer_result_exact (Fixture.heap0 Fixture.service)
              "test.txt" "test-bucket" "test.csv" None) as (Hup & _).
  destruct (transfer_result_exact (Fixture.heap0 Fixture.denied)
              "local-test.txt" "test-bucket" "test.csv" None)
    as (_ & _ & _ & _ & Hdown & _).
  split.
  - apply (proj2 Hup). vm_compute. reflexivity.
  - apply (proj1 Hdown). vm_compute. reflexivity.
Defined.

Lemma download_upload_copies_witness :
  remote_objects Mock.env0 !! ("test-bucket", "test.csv") = Some Mock.csv_bytes
  /\ remote_objects
       (env (world
          (upload_file "local-test.txt" "backup" (Some "copy.csv")
             (download_file "test-bucket" "test.csv" "local-test.txt"
                (Fixture.heap0 Fixture.service)).2).2))
       !! ("backup", "copy.csv") = Some Mock.csv_bytes.
Proof.
  assert (Hobj : remote_objects Mock.env0 !! ("test-bucket", "test.csv")
                 = Some Mock.csv_bytes) by (vm_compute; reflexivity).
  split; [exact Hobj|].
  exact (proj1 (proj2 (proj2
           (download_upload_copies (Fixture.heap0 Fixture.service)
              "test-bucket" "test.csv" "local-test.txt" "backup" "copy.csv"
              Mock.csv_bytes (mock_stores_and_returns _ _) Hobj)))).
Defined.

Lemma read_csv_log_tells_cause_witness :
  records (world (read_csv_to_dataframe "test-bucket" "empty.csv" Mock.no_kwargs
                    (Fixture.heap0 Fixture.service)).2)
  = [] ++ [ {| rec_logger := "src.S3Pipeline"; rec_level := ERROR;
               rec_message := "CSV file is empty" |} ].
Proof.
  refine (proj1 (read_csv_log_tells_cause (Fixture.heap0 Fixture.service)
                   "test-bucket" "empty.csv" Mock.no_kwargs
                   (EmptyDataError "No columns to parse from file") _)).
  vm_compute. reflexivity.
Defined.



Lemma list_objects_members_and_length_witness :
  exists keys,
    (list_objects "test-bucket" "test/" (Fixture.heap0 Fixture.service)).1 = Return keys
    /\ length keys = 3.
Proof.
  destruct (list_objects_members_and_length (Fixture.heap0 Fixture.service)
              "test-bucket" "test/"
              {| Client.paginate := fun _ _ e' => (Return _, e') |}
              Mock.env0 Mock.env0
              [ {| Client.Contents := Some [ {| Client.Key := "object1" |};
                                             {| Client.Key := "object2" |} ] |};
                {| Client.Contents := Some [ {| Client.Key := "object3" |} ] |} ]
              eq_refl eq_refl) as (keys & Hres & Hlen & _).
  exists keys. split; [exact Hres | exact Hlen].
Defined.


Lemma transfer_called_once_witness :
  Mock.transfer_count Mock.env0 = 0
  /\ Mock.transfer_count
       (env (world (upload_file "test.txt" "test-bucket" None
                      (Fixture.heap0 (Mock.counting Fixture.service))).2)) = 1
  /\ Mock.transfer_count
       (env (world (download_file "test-bucket" "test.csv" "local-test.txt"
                      (Fixture.heap0 (Mock.counting Fixture.denied))).2)) = 1.
Proof.
  split; [reflexivity|].
  destruct (transfer_called_once (Fixture.heap0 (Mock.counting Fixture.service))
              "test.txt" "test-bucket" "test.csv" None) as ((Hup & _) & _).
  destruct (transfer_called_once (Fixture.heap0 (Mock.counting Fixture.denied))
              "local-test.txt" "test-bucket" "test.csv" None) as (_ & (Hdown & _)).
  split.
  - rewrite Hup. vm_compute. reflexivity.
  - rewrite Hdown. vm_compute. reflexivity.
Defined.

Lemma read_csv_call_sequence_witness :
  calls (world (read_csv_to_dataframe "test-bucket" "test.csv" Mock.no_kwargs
                  (Fixture.heap0 Fixture.service)).2)
  = [] ++ [ Call_get_object "test-bucket" "test.csv"; Call_Body_read;
            Call_read_csv Mock.csv_bytes Mock.no_kwargs ]
  /\ calls (world (read_csv_to_dataframe "test-bucket" "nonexistent.csv" Mock.no_kwargs
                     (Fixture.heap0 Fixture.service)).2)
     = [] ++ [ Call_get_object "test-bucket" "nonexistent.csv" ].
Proof.
  destruct (read_csv_call_sequence (Fixture.heap0 Fixture.service)
              "test-bucket" "test.csv" Mock.no_kwargs) as (_ & _ & Hok).
  destruct (read_csv_call_sequence (Fixture.heap0 Fixture.service)
              "test-bucket" "nonexistent.csv" Mock.no_kwargs) as (Hget & _).
  split.
  - refine (proj1 (Hok {| Client.Body := {| Client.read := fun e' => (Return _, e') |} |}
                     Mock.env0 Mock.csv_bytes Mock.env0 _ _)).
    + vm_compute. reflexivity.
    + reflexivity.
  - refine (proj1 (Hget (ClientError "Not Found") Mock.env0 _)).
    vm_compute. reflexivity.
Defined.

Lemma list_objects_call_sequence_witness :
  (list_objects "test-bucket" "test/" (Fixture.heap0 Fixture.service)).1
    = Return ["object1"; "object2"; "object3"]
  /\ calls (world (list_objects "test-bucket" "test/"
                     (Fixture.heap0 Fixture.service)).2)
     = [] ++ [ Call_get_paginator "list_objects_v2";
               Call_paginate "test-bucket" "test/" ]
  /\ calls (world (list_objects "test-bucket" "test/" (Fixture.heap0 Fixture.denied)).2)
     = [] ++ [ Call_get_paginator "list_objects_v2" ].
Proof.
  destruct (list_objects_call_sequence (Fixture.heap0 Fixture.service)
              "test-bucket" "test/") as (_ & _ & Hok).
  destruct (list_objects_call_sequence (Fixture.heap0 Fixture.denied)
              "test-bucket" "test/") as (Hko & _).
  destruct (Hok {| Client.paginate := fun _ _ e' => (Return _, e') |}
              Mock.env0 _ Mock.env0 eq_refl eq_refl) as (Hcalls & _ & Hres).
  split; [exact Hres|]. split; [exact Hcalls|].
  exact (proj1 (Hko (ClientError "Access Denied") Mock.env0 eq_refl)).
Defined.

Lemma empty_listing_ambiguous_witness :
  (list_buckets (Fixture.heap0 Fixture.denied)).1
    = (list_buckets (Fixture.heap0 (Mock.client None [] Client.StopIteration))).1
  /\ (list_objects "test-bucket" "" (Fixture.heap0 Fixture.interrupted)).1
     = (list_objects "test-bucket" ""
          (Fixture.heap0 (Mock.client None [] Client.StopIteration))).1.
Proof.
  destruct (empty_listing_ambiguous (Fixture.heap0 Fixture.denied)
              (Fixture.heap0 (Mock.client None [] Client.StopIteration))
              "test-bucket" "") as (Hb & _).
  destruct (empty_listing_ambiguous (Fixture.heap0 Fixture.interrupted)
              (Fixture.heap0 (Mock.client None [] Client.StopIteration))
              "test-bucket" "") as (_ & Ho).
  destruct (Hb "Access Denied" {| Client.Buckets := [] |} eq_refl eq_refl eq_refl)
    as (Hb1 & Hb2 & _).
  destruct (Ho "Access Denied"
              {| Client.paginate := fun _ _ e' => (Return Client.StopIteration, e') |}
              Mock.env0 [] Mock.env0 eq_refl eq_refl eq_refl eq_refl)
    as (Ho1 & Ho2 & _).
  split.
  - rewrite Hb1, Hb2. reflexivity.
  - rewrite Ho1, Ho2. reflexivity.
Defined.

(** ** Where the code departs from its documentation *)

(** C5: the code does not return [False] on every service-reported
    failure.  The service refuses the upload; the SDK's [upload_file]
    raises [S3UploadFailedError]; the single [except ClientError]
    clause of [upload_file] does not match it, and the method raises
    where its docstring promises [False]. *)
Lemma upload_file_raises_on_refused_upload :
  (Client.upload_file Fixture.refused_upload "test.txt" "test-bucket" "test.txt"
     Mock.env0).1
  = Raise (OtherException "S3UploadFailedError"
             "Failed to upload test.txt to test-bucket/test.txt: An error occurred (AccessDenied) when calling the PutObject operation: Access Denied")
  /\ (upload_file "test.txt" "test-bucket" None
        (Fixture.heap0 Fixture.refused_upload)).1
     = Raise (OtherException "S3UploadFailedError"
                "Failed to upload test.txt to test-bucket/test.txt: An error occurred (AccessDenied) when calling the PutObject operation: Access Denied")
  /\ (upload_file "test.txt" "test-bucket" None
        (Fixture.heap0 Fixture.refused_upload)).1 <> Return false.
Proof.
  assert (Hrun : (upload_file "test.txt" "test-bucket" None
                    (Fixture.heap0 Fixture.refused_upload)).1
                 = Raise (OtherException "S3UploadFailedError"
                            "Failed to upload test.txt to test-bucket/test.txt: An error occurred (AccessDenied) when calling the PutObject operation: Access Denied"))
    by reflexivity.
  split; [reflexivity|]. split; [exact Hrun|].
  rewrite Hrun. intros Heq. inversion Heq.
Qed.

(** C1: construction is not the only operation of the code that lets
    an error through.  On the same refused upload the public operation
    [upload_file] raises the SDK's exception instead of returning its
    sentinel, and it logs nothing; the same holds for the other
    operations with a single [except ClientError] clause when the
    service cannot be reached. *)
Lemma operation_propagates_service_failure :
  service_failure (op_upload_file "test.txt" "test-bucket" None)
    Fixture.refused_upload Mock.env0
  = Some (OtherException "S3UploadFailedError"
            "Failed to upload test.txt to test-bucket/test.txt: An error occurred (AccessDenied) when calling the PutObject operation: Access Denied")
  /\ raised (run (op_upload_file "test.txt" "test-bucket" None)
               (Fixture.heap0 Fixture.refused_upload)).1 = true
  /\ (run (op_upload_file "test.txt" "test-bucket" None)
        (Fixture.heap0 Fixture.refused_upload)).1
     <> Return (sentinel (op_upload_file "test.txt" "test-bucket" None))
  /\ raised (run (op_download_file "test-bucket" "test.csv" "local-test.txt")
               (Fixture.heap0 Fixture.unreachable)).1 = true
  /\ raised (run op_list_buckets (Fixture.heap0 Fixture.unreachable)).1 = true
  /\ raised (run (op_list_objects "test-bucket" "")
               (Fixture.heap0 Fixture.unreachable)).1 = true.
Proof.
  assert (Hup : raised (run (op_upload_file "test.txt" "test-bucket" None)
                          (Fixture.heap0 Fixture.refused_upload)).1 = true)
    by reflexivity.
  split; [reflexivity|]. split; [exact Hup|]. split.
  - intros Heq. rewrite Heq in Hup. discriminate Hup.
  - repeat split; reflexivity.
Qed.

End Witnesses.
